(** * samcodes-chartboost: the CFFI bridge and the vendor error codes

  A shallow embedding of [project/common/ExternalInterface.cpp] (the
  functions the Haxe side reaches through CFFI Prime, and the callback
  [sendChartboostEvent] the native side re-enters the host with) and of
  the three error enumerations of the vendor header [CHBAdDelegate.h].

  The bridge (everything under [#ifdef IPHONE]) is effectful C++: it reads
  and writes one file-scope pointer, allocates host objects and calls out
  in two directions (into the native SDK, and back into the host runtime).
  All of that is threaded through a state monad over a [world]; every call
  that leaves the bridge is appended to a log, so that "calls exactly this
  function with exactly this argument" is a statement about the log.

  C strings are modelled by their characters, C [int]s by the integer
  they hold and C [bool]s by [bool]. *)

From Stdlib Require Import ZArith NArith.
From stdpp Require Import base option strings gmap list finite.

Local Open Scope Z_scope.

(** ** The host runtime, as seen through hx/CFFI.h *)

Module CFFI.

(** Host objects live in the runtime's heap and are mutated in place by
    [alloc_field]; a [value] only refers to them. *)
Definition loc := positive.

(** What a [value] handle can denote. *)
Inductive value :=
| VNull
| VBool (b : bool)
| VInt (i : Z)
| VString (s : string)
| VObject (l : loc)
| VFunction (l : loc).

#[export] Instance value_eq_dec : EqDecision value.
Proof. solve_decision. Defined.

(** [val_id] interns a field name; ids and names are in bijection, so a
    field id is modelled by the name it stands for. *)
Definition field := string.
Definition val_id (name : string) : field := name.

(** Immediate and immutable values. *)
Definition alloc_string (s : string) : value := VString s.
Definition alloc_int (i : Z) : value := VInt i.
Definition alloc_bool (b : bool) : value := VBool b.

(** [AutoGCRoot] keeps a host value reachable; [get] hands it back. *)
Record AutoGCRoot := new_AutoGCRoot { get : value }.

#[export] Instance AutoGCRoot_eq_dec : EqDecision AutoGCRoot.
Proof. solve_decision. Defined.

(** [HxString] of hx/CFFIPrime.h: a host string handed to a primitive;
    [c_str] exposes its characters. *)
Record HxString := mk_HxString { c_str : string }.

End CFFI.
Export CFFI.

(** ** Calls that leave the bridge *)

(** Arguments of the native entry points: C strings and C booleans. *)
Inductive carg :=
| CStr (s : string)
| CBool (b : bool).

#[export] Instance carg_eq_dec : EqDecision carg.
Proof. solve_decision. Defined.

(** A call into the host is logged with the host heap as it is at that
    moment: that is what the callee finds behind the references it is
    handed, whatever the bridge does after the call returns. *)
Inductive event :=
| NativeCall (fn : string) (args : list carg)  (* fn(args), by identifier *)
| HostCall (f : value) (arg : value)           (* val_call1(f, arg) *)
    (entered : gmap loc (gmap string value)).

#[export] Instance event_eq_dec : EqDecision event.
Proof. solve_decision. Defined.

(** ** State *)

(** The file-scope variables of ExternalInterface.cpp: there is one,
  [AutoGCRoot* chartboostEventHandle = 0;].  A null pointer is [None]. *)
Record globals := Globals { chartboostEventHandle : option AutoGCRoot }.

Record world := World {
  bridge : globals;                      (* the bridge's own variables *)
  heap : gmap loc (gmap string value);   (* host objects, by reference *)
  calls : list event;                    (* outgoing calls, oldest first *)
}.

(** The state at load time. *)
Definition init : world := World (Globals None) ∅ [].

(** ** The monad of bridge code *)

Definition M (A : Type) : Type := world → A * world.

#[export] Instance M_ret : MRet M := λ A a w, (a, w).
#[export] Instance M_bind : MBind M := λ A B f m w, let '(a, w') := m w in f a w'.

Definition read_chartboostEventHandle : M (option AutoGCRoot) :=
  λ w, (chartboostEventHandle (bridge w), w).

Definition write_chartboostEventHandle (h : option AutoGCRoot) : M () :=
  λ w, ((), World (Globals h) (heap w) (calls w)).

Definition emit (e : event) : M () :=
  λ w, ((), World (bridge w) (heap w) (calls w ++ [e])).

(** [alloc_empty_object] takes a reference no object has yet. *)
Definition alloc_empty_object : M value :=
  λ w, let l := fresh (dom (heap w)) in
       (VObject l, World (bridge w) (<[l := ∅]> (heap w)) (calls w)).

(** [alloc_field o f v] sets field [f] of the object [o] refers to.  On a
  handle that is not a live object the heap is left as it is. *)
Definition alloc_field (o : value) (f : field) (v : value) : M () :=
  λ w, match o with
       | VObject l => ((), World (bridge w) (alter (insert f v) l (heap w)) (calls w))
       | _ => ((), w)
       end.

(** [val_call1 f arg] enters the host function [f] with one argument, in
  the heap of that moment.  What the host does inside the call is not
  bridge code; the call itself is logged. *)
Definition val_call1 (f arg : value) : M () :=
  λ w, emit (HostCall f arg (heap w)) w.

(** ** What the source leaves to its environment *)

(** The bridge only declares, through SamcodesChartboost.h and hx/CFFI.h,
  what it calls; how those functions answer is not its business.  It
  needs from its platform: the answers of the value-returning native
  functions (they may depend on everything called so far; a
  [const char*] answer may be the null pointer, [None]), the CFFI
  decoder [val_bool], which reads a handle as a C [bool], and the handle
  a C [bool] is taken for where the source passes one to a parameter of
  type [value]. *)
Class Platform := {
  answer_bool : list event → string → list carg → bool;
  answer_cstr : list event → string → list carg → option string;
  val_bool : value → bool;
  bool_as_value : bool → value;
}.

Section Bridge.
Context `{Platform}.

(** A call whose result, if any, is dropped. *)
Definition native (fn : string) (args : list carg) : M () :=
  emit (NativeCall fn args).

Definition native_bool (fn : string) (args : list carg) : M bool :=
  λ w, (answer_bool (calls w) fn args,
        World (bridge w) (heap w) (calls w ++ [NativeCall fn args])).

Definition native_cstr (fn : string) (args : list carg) : M (option string) :=
  λ w, (answer_cstr (calls w) fn args,
        World (bridge w) (heap w) (calls w ++ [NativeCall fn args])).

(** *** namespace samcodeschartboost

    The entry points the bridge calls, with the argument types of the
    call sites and the result types the bridge uses them at. *)
Definition showInterstitial (location : string) : M () :=
  native "showInterstitial" [CStr location].
Definition cacheInterstitial (location : string) : M () :=
  native "cacheInterstitial" [CStr location].
Definition hasInterstitial (location : string) : M bool :=
  native_bool "hasInterstitial" [CStr location].
Definition showRewardedVideo (location : string) : M () :=
  native "showRewardedVideo" [CStr location].
Definition cacheRewardedVideo (location : string) : M () :=
  native "cacheRewardedVideo" [CStr location].
Definition hasRewardedVideo (location : string) : M bool :=
  native_bool "hasRewardedVideo" [CStr location].
Definition isAnyViewVisible : M bool :=
  native_bool "isAnyViewVisible" [].
Definition setCustomId (id : string) : M () :=
  native "setCustomId" [CStr id].
Definition getCustomId : M (option string) :=
  native_cstr "getCustomId" [].
Definition setShouldRequestInterstitialsInFirstSession (b : bool) : M () :=
  native "setShouldRequestInterstitialsInFirstSession" [CBool b].
Definition getAutoCacheAds : M bool :=
  native_bool "getAutoCacheAds" [].
Definition setAutoCacheAds (b : bool) : M () :=
  native "setAutoCacheAds" [CBool b].
Definition setShouldPrefetchVideoContent (b : bool) : M () :=
  native "setShouldPrefetchVideoContent" [CBool b].
Definition getSDKVersion : M (option string) :=
  native_cstr "getSDKVersion" [].
Definition setStatusBarBehavior (b : bool) : M () :=
  native "setStatusBarBehavior" [CBool b].
Definition setMuted (b : bool) : M () :=
  native "setMuted" [CBool b].
Definition restrictDataCollection (b : bool) : M () :=
  native "restrictDataCollection" [CBool b].

(** *** ExternalInterface.cpp *)

Definition set_listener (onEvent : value) : M () :=
  write_chartboostEventHandle (Some (new_AutoGCRoot onEvent)).

Definition show_interstitial (location : HxString) : M () :=
  showInterstitial (c_str location).

Definition cache_interstitial (location : HxString) : M () :=
  cacheInterstitial (c_str location).

(** Declared [static void]: the callee's answer has nowhere to go. *)
Definition has_interstitial (location : HxString) : M () :=
  hasInterstitial (c_str location) ;; mret ().

Definition show_rewarded_video (location : HxString) : M () :=
  showRewardedVideo (c_str location).

Definition cache_rewarded_video (location : HxString) : M () :=
  cacheRewardedVideo (c_str location).

(** The body is the single expression statement
    [returnhasRewardedVideo(location.c_str());]: a call of the identifier
    [returnhasRewardedVideo].  Control then reaches the end of a function
    declared [bool] without a return statement, so no value is returned
    ([None]). *)
Definition has_rewarded_video (location : HxString) : M (option bool) :=
  native "returnhasRewardedVideo" [CStr (c_str location)] ;; mret None.

Definition is_any_view_visible : M bool :=
  isAnyViewVisible.

Definition set_custom_id (id : HxString) : M () :=
  setCustomId (c_str id).

(** Returns the [const char*] of [getCustomId] as it is, null included. *)
Definition get_custom_id : M (option string) :=
  getCustomId.

Definition set_should_request_interstitials_in_first_session
    (shouldRequest : bool) : M () :=
  setShouldRequestInterstitialsInFirstSession shouldRequest.

Definition get_auto_cache_ads : M bool :=
  getAutoCacheAds.

Definition set_auto_cache_ads (autoCache : bool) : M () :=
  setAutoCacheAds autoCache.

Definition set_should_prefetch_video_content (shouldPrefetch : bool) : M () :=
  setShouldPrefetchVideoContent shouldPrefetch.

(** [HxString(getSDKVersion())]: an [HxString] over the characters the
    pointer leads to; over the null pointer it has none ([None]). *)
Definition get_sdk_version : M (option HxString) :=
  s ← getSDKVersion; mret (mk_HxString <$> s).

(** [setStatusBarBehavior(val_bool(shouldHide));] with [shouldHide] a C
    [bool]: the decoder for host handles is applied to it. *)
Definition set_status_bar_behavior (shouldHide : bool) : M () :=
  setStatusBarBehavior (val_bool (bool_as_value shouldHide)).

Definition set_muted (mute : bool) : M () :=
  setMuted mute.

Definition restrict_data_collection (shouldRestrict : bool) : M () :=
  restrictDataCollection shouldRestrict.

Definition samcodeschartboost_main : M () := mret ().

Definition samcodeschartboost_register_prims : M Z := mret 0.

Definition sendChartboostEvent
    (type location uri : string) (reward_coins error : Z) (status : bool) : M () :=
  h ← read_chartboostEventHandle;
  match h with
  | None => mret ()
  | Some root =>
      o ← alloc_empty_object;
      alloc_field o (val_id "type") (alloc_string type) ;;
      alloc_field o (val_id "location") (alloc_string location) ;;
      alloc_field o (val_id "uri") (alloc_string uri) ;;
      alloc_field o (val_id "reward_coins") (alloc_int reward_coins) ;;
      alloc_field o (val_id "error") (alloc_int error) ;;
      alloc_field o (val_id "status") (alloc_bool status) ;;
      val_call1 (get root) o
  end.

(** *** The operations the bridge exports

    Everything another party can invoke: the primitives registered with
    [DEFINE_PRIME*], the two [extern "C"] hooks of the library, and the
    callback the native side calls. *)
Inductive prim :=
| Set_listener (onEvent : value)
| Show_interstitial (location : HxString)
| Cache_interstitial (location : HxString)
| Has_interstitial (location : HxString)
| Show_rewarded_video (location : HxString)
| Cache_rewarded_video (location : HxString)
| Has_rewarded_video (location : HxString)
| Is_any_view_visible
| Set_custom_id (id : HxString)
| Get_custom_id
| Set_should_request_interstitials_in_first_session (shouldRequest : bool)
| Get_auto_cache_ads
| Set_auto_cache_ads (autoCache : bool)
| Set_should_prefetch_video_content (shouldPrefetch : bool)
| Get_sdk_version
| Set_status_bar_behavior (shouldHide : bool)
| Set_muted (mute : bool)
| Restrict_data_collection (shouldRestrict : bool)
| Samcodeschartboost_main
| Samcodeschartboost_register_prims
| SendChartboostEvent (type location uri : string)
                      (reward_coins error : Z) (status : bool).

(** One invocation, its result dropped: only the effect on the world. *)
Definition invoke (p : prim) : M () :=
  match p with
  | Set_listener onEvent => set_listener onEvent
  | Show_interstitial location => show_interstitial location
  | Cache_interstitial location => cache_interstitial location
  | Has_interstitial location => has_interstitial location
  | Show_rewarded_video location => show_rewarded_video location
  | Cache_rewarded_video location => cache_rewarded_video location
  | Has_rewarded_video location => has_rewarded_video location ;; mret ()
  | Is_any_view_visible => is_any_view_visible ;; mret ()
  | Set_custom_id id => set_custom_id id
  | Get_custom_id => get_custom_id ;; mret ()
  | Set_should_request_interstitials_in_first_session shouldRequest =>
      set_should_request_interstitials_in_first_session shouldRequest
  | Get_auto_cache_ads => get_auto_cache_ads ;; mret ()
  | Set_auto_cache_ads autoCache => set_auto_cache_ads autoCache
  | Set_should_prefetch_video_content shouldPrefetch =>
      set_should_prefetch_video_content shouldPrefetch
  | Get_sdk_version => get_sdk_version ;; mret ()
  | Set_status_bar_behavior shouldHide => set_status_bar_behavior shouldHide
  | Set_muted mute => set_muted mute
  | Restrict_data_collection shouldRestrict =>
      restrict_data_collection shouldRestrict
  | Samcodeschartboost_main => samcodeschartboost_main
  | Samcodeschartboost_register_prims =>
      samcodeschartboost_register_prims ;; mret ()
  | SendChartboostEvent type location uri reward_coins error status =>
      sendChartboostEvent type location uri reward_coins error status
  end.

(** A history of invocations, oldest first. *)
Fixpoint run (ps : list prim) (w : world) : world :=
  match ps with
  | [] => w
  | p :: ps => run ps (invoke p w).2
  end.

End Bridge.

(** The handle a history leaves behind, read off the history alone: the
    root of the latest [set_listener], or the handle it started with. *)
Fixpoint registered (ps : list prim) (h : option AutoGCRoot) : option AutoGCRoot :=
  match ps with
  | [] => h
  | Set_listener onEvent :: ps => registered ps (Some (new_AutoGCRoot onEvent))
  | _ :: ps => registered ps h
  end.

(** [w] with one more outgoing call, and nothing else changed. *)
Definition logged (w : world) (e : event) : world :=
  World (bridge w) (heap w) (calls w ++ [e]).

(** ** The vendor header CHBAdDelegate.h *)

Module CHBAdDelegate.

(** [typedef NS_ENUM(NSUInteger, CHBCacheErrorCode)] *)
Inductive CHBCacheErrorCode :=
| CHBCacheErrorCodeInternal
| CHBCacheErrorCodeInternetUnavailable
| CHBCacheErrorCodeNetworkFailure
| CHBCacheErrorCodeNoAdFound
| CHBCacheErrorCodeSessionNotStarted
| CHBCacheErrorCodeAssetDownloadFailure.

(** [typedef NS_ENUM(NSUInteger, CHBShowErrorCode)] *)
Inductive CHBShowErrorCode :=
| CHBShowErrorCodeInternal
| CHBShowErrorCodeSessionNotStarted
| CHBShowErrorCodeAdAlreadyVisible
| CHBShowErrorCodeInternetUnavailable
| CHBShowErrorCodePresentationFailure
| CHBShowErrorCodeNoCachedAd.

(** [typedef NS_ENUM(NSUInteger, CHBClickErrorCode)] *)
Inductive CHBClickErrorCode :=
| CHBClickErrorCodeUriInvalid
| CHBClickErrorCodeUriUnrecognized
| CHBClickErrorCodeConfirmationGateFailure
| CHBClickErrorCodeInternal.

(** The [NSUInteger] behind each enumerator. *)
Definition cache_code (c : CHBCacheErrorCode) : N :=
  match c with
  | CHBCacheErrorCodeInternal => 0
  | CHBCacheErrorCodeInternetUnavailable => 1
  | CHBCacheErrorCodeNetworkFailure => 5
  | CHBCacheErrorCodeNoAdFound => 6
  | CHBCacheErrorCodeSessionNotStarted => 7
  | CHBCacheErrorCodeAssetDownloadFailure => 16
  end%N.

Definition show_code (c : CHBShowErrorCode) : N :=
  match c with
  | CHBShowErrorCodeInternal => 0
  | CHBShowErrorCodeSessionNotStarted => 7
  | CHBShowErrorCodeAdAlreadyVisible => 8
  | CHBShowErrorCodeInternetUnavailable => 25
  | CHBShowErrorCodePresentationFailure => 33
  | CHBShowErrorCodeNoCachedAd => 34
  end%N.

Definition click_code (c : CHBClickErrorCode) : N :=
  match c with
  | CHBClickErrorCodeUriInvalid => 0
  | CHBClickErrorCodeUriUnrecognized => 1
  | CHBClickErrorCodeConfirmationGateFailure => 2
  | CHBClickErrorCodeInternal => 3
  end%N.

(** The enumerators as the header spells them. *)
Definition cache_name (c : CHBCacheErrorCode) : string :=
  match c with
  | CHBCacheErrorCodeInternal => "CHBCacheErrorCodeInternal"
  | CHBCacheErrorCodeInternetUnavailable => "CHBCacheErrorCodeInternetUnavailable"
  | CHBCacheErrorCodeNetworkFailure => "CHBCacheErrorCodeNetworkFailure"
  | CHBCacheErrorCodeNoAdFound => "CHBCacheErrorCodeNoAdFound"
  | CHBCacheErrorCodeSessionNotStarted => "CHBCacheErrorCodeSessionNotStarted"
  | CHBCacheErrorCodeAssetDownloadFailure => "CHBCacheErrorCodeAssetDownloadFailure"
  end.

Definition show_name (c : CHBShowErrorCode) : string :=
  match c with
  | CHBShowErrorCodeInternal => "CHBShowErrorCodeInternal"
  | CHBShowErrorCodeSessionNotStarted => "CHBShowErrorCodeSessionNotStarted"
  | CHBShowErrorCodeAdAlreadyVisible => "CHBShowErrorCodeAdAlreadyVisible"
  | CHBShowErrorCodeInternetUnavailable => "CHBShowErrorCodeInternetUnavailable"
  | CHBShowErrorCodePresentationFailure => "CHBShowErrorCodePresentationFailure"
  | CHBShowErrorCodeNoCachedAd => "CHBShowErrorCodeNoCachedAd"
  end.

Definition click_name (c : CHBClickErrorCode) : string :=
  match c with
  | CHBClickErrorCodeUriInvalid => "CHBClickErrorCodeUriInvalid"
  | CHBClickErrorCodeUriUnrecognized => "CHBClickErrorCodeUriUnrecognized"
  | CHBClickErrorCodeConfirmationGateFailure => "CHBClickErrorCodeConfirmationGateFailure"
  | CHBClickErrorCodeInternal => "CHBClickErrorCodeInternal"
  end.

#[export] Instance CHBCacheErrorCode_eq_dec : EqDecision CHBCacheErrorCode.
Proof. solve_decision. Defined.
#[export] Instance CHBShowErrorCode_eq_dec : EqDecision CHBShowErrorCode.
Proof. solve_decision. Defined.
#[export] Instance CHBClickErrorCode_eq_dec : EqDecision CHBClickErrorCode.
Proof. solve_decision. Defined.

(** Each enumeration is its list of enumerators, in declaration order. *)
#[export] Instance CHBCacheErrorCode_finite : Finite CHBCacheErrorCode.
Proof.
  refine {| enum := [ CHBCacheErrorCodeInternal;
                      CHBCacheErrorCodeInternetUnavailable;
                      CHBCacheErrorCodeNetworkFailure;
                      CHBCacheErrorCodeNoAdFound;
                      CHBCacheErrorCodeSessionNotStarted;
                      CHBCacheErrorCodeAssetDownloadFailure ] |}.
  - by apply (bool_decide_unpack _).
  - intros []; set_solver.
Defined.

#[export] Instance CHBShowErrorCode_finite : Finite CHBShowErrorCode.
Proof.
  refine {| enum := [ CHBShowErrorCodeInternal;
                      CHBShowErrorCodeSessionNotStarted;
                      CHBShowErrorCodeAdAlreadyVisible;
                      CHBShowErrorCodeInternetUnavailable;
                      CHBShowErrorCodePresentationFailure;
                      CHBShowErrorCodeNoCachedAd ] |}.
  - by apply (bool_decide_unpack _).
  - intros []; set_solver.
Defined.

#[export] Instance CHBClickErrorCode_finite : Finite CHBClickErrorCode.
Proof.
  refine {| enum := [ CHBClickErrorCodeUriInvalid;
                      CHBClickErrorCodeUriUnrecognized;
                      CHBClickErrorCodeConfirmationGateFailure;
                      CHBClickErrorCodeInternal ] |}.
  - by apply (bool_decide_unpack _).
  - intros []; set_solver.
Defined.

(** An error of any of the three kinds the delegate methods report
    ([CHBCacheError], [CHBShowError], [CHBClickError], each carrying its
    [code]), the kind it belongs to, and the number it carries. *)
Inductive CHBError :=
| CacheError (code : CHBCacheErrorCode)
| ShowError (code : CHBShowErrorCode)
| ClickError (code : CHBClickErrorCode).

Inductive error_kind := CacheKind | ShowKind | ClickKind.

Definition kind_of (e : CHBError) : error_kind :=
  match e with
  | CacheError _ => CacheKind
  | ShowError _ => ShowKind
  | ClickError _ => ClickKind
  end.

Definition number_of (e : CHBError) : N :=
  match e with
  | CacheError c => cache_code c
  | ShowError c => show_code c
  | ClickError c => click_code c
  end.

(** Reading a number back, given the kind of error it came with. *)
Definition decode (k : error_kind) (n : N) : option CHBError :=
  match k with
  | CacheKind =>
      CacheError ∘ snd <$> list_find (λ c, cache_code c = n) (enum CHBCacheErrorCode)
  | ShowKind =>
      ShowError ∘ snd <$> list_find (λ c, show_code c = n) (enum CHBShowErrorCode)
  | ClickKind =>
      ClickError ∘ snd <$> list_find (λ c, click_code c = n) (enum CHBClickErrorCode)
  end.

End CHBAdDelegate.

(** ** Reading a history *)

(** The fields [sendChartboostEvent] sets, for its six arguments. *)
Definition event_record (type location uri : string)
    (reward_coins error : Z) (status : bool) : gmap string value :=
  list_to_map
    [ ("type", VString type); ("location", VString location);
      ("uri", VString uri); ("reward_coins", VInt reward_coins);
      ("error", VInt error); ("status", VBool status) ].

(** What a history should hand to the host, read off the history alone:
    one (handler, record) pair for every [sendChartboostEvent] that ran
    after a [set_listener], addressed to the listener of that moment. *)
Fixpoint deliveries (ps : list prim) (h : option AutoGCRoot)
    : list (value * gmap string value) :=
  match ps with
  | [] => []
  | Set_listener onEvent :: ps => deliveries ps (Some (new_AutoGCRoot onEvent))
  | SendChartboostEvent type location uri reward_coins error status :: ps =>
      match h with
      | Some root =>
          (get root, event_record type location uri reward_coins error status)
            :: deliveries ps h
      | None => deliveries ps h
      end
  | _ :: ps => deliveries ps h
  end.

(** The calls a world [w'] has logged beyond those of an earlier [w]. *)
Definition calls_since (w w' : world) : list event :=
  drop (length (calls w)) (calls w').

(** The host calls among [es], each with what its argument refers to in
    the heap [hp] ([None] if it is no live object). *)
Definition host_calls (hp : gmap loc (gmap string value)) (es : list event)
    : list (value * option (gmap string value)) :=
  omap (λ e, match e with
             | HostCall f (VObject l) _ => Some (f, hp !! l)
             | HostCall f _ _ => Some (f, None)
             | NativeCall _ _ => None
             end) es.

(** The native calls among [es]. *)
Definition native_calls (es : list event) : list (string * list carg) :=
  omap (λ e, match e with
             | NativeCall fn args => Some (fn, args)
             | HostCall _ _ _ => None
             end) es.


(** ** Platforms to run examples on *)

(** Every boolean query answers [true],
    every string query ["8.4.2"], [val_bool] reads [Bool] objects and
    answers [false] on everything else, and a C [bool] taken for a handle
    is no object at all. *)
Definition example_platform : Platform := {|
  answer_bool := λ _ _ _, true;
  answer_cstr := λ _ _ _, Some "8.4.2";
  val_bool := λ v, match v with VBool b => b | _ => false end;
  bool_as_value := λ _, VNull;
|}.

(** The same platform with every boolean query answering [false]. *)
Definition example_platform_no : Platform := {|
  answer_bool := λ _ _ _, false;
  answer_cstr := λ _ _ _, Some "8.4.2";
  val_bool := λ v, match v with VBool b => b | _ => false end;
  bool_as_value := λ _, VNull;
|}.

(** * Properties *)

(** ** Running bridge code *)

Section BridgeFacts.
Context `{Platform}.

Lemma native_spec fn args w :
  native fn args w = ((), logged w (NativeCall fn args)).
Proof. reflexivity. Qed.

Lemma native_bool_spec fn args w :
  native_bool fn args w =
    (answer_bool (calls w) fn args, logged w (NativeCall fn args)).
Proof. reflexivity. Qed.

(** Setting a field of the object just stored under [l]. *)
Lemma alloc_field_stored l f v g (h : gmap loc (gmap string value)) c r :
  alloc_field (VObject l) f v (World g (<[l := r]> h) c) =
    ((), World g (<[l := <[f := v]> r]> h) c).
Proof. unfold alloc_field; simpl. by rewrite alter_insert_eq. Qed.

(** The callback with a listener in place: one fresh object, filled field
    by field in source order, and then one call into the host, entered
    with the object filled. *)
Lemma sendChartboostEvent_registered type location uri reward_coins error status w root :
  chartboostEventHandle (bridge w) = Some root →
  sendChartboostEvent type location uri reward_coins error status w =
    ((), World (bridge w)
           (<[fresh (dom (heap w)) :=
                <["status" := VBool status]>
                (<["error" := VInt error]>
                (<["reward_coins" := VInt reward_coins]>
                (<["uri" := VString uri]>
                (<["location" := VString location]>
                (<["type" := VString type]> ∅)))))]> (heap w))
           (calls w ++
              [HostCall (get root) (VObject (fresh (dom (heap w))))
                 (<[fresh (dom (heap w)) :=
                      <["status" := VBool status]>
                      (<["error" := VInt error]>
                      (<["reward_coins" := VInt reward_coins]>
                      (<["uri" := VString uri]>
                      (<["location" := VString location]>
                      (<["type" := VString type]> ∅)))))]> (heap w))])).
Proof.
  intros Hroot. unfold sendChartboostEvent, read_chartboostEventHandle.
  unfold mbind, M_bind. rewrite Hroot. unfold alloc_empty_object.
  cbv zeta. rewrite !alloc_field_stored. reflexivity.
Qed.

Lemma sendChartboostEvent_unregistered type location uri reward_coins error status w :
  chartboostEventHandle (bridge w) = None →
  sendChartboostEvent type location uri reward_coins error status w = ((), w).
Proof.
  intros Hnull. unfold sendChartboostEvent, read_chartboostEventHandle.
  unfold mbind, M_bind. by rewrite Hnull.
Qed.

(** The callback never touches the bridge's variables. *)
Lemma sendChartboostEvent_bridge type location uri reward_coins error status w :
  bridge (sendChartboostEvent type location uri reward_coins error status w).2 = bridge w.
Proof.
  destruct (chartboostEventHandle (bridge w)) as [root|] eqn:Hh.
  - by rewrite (sendChartboostEvent_registered _ _ _ _ _ _ _ root).
  - by rewrite sendChartboostEvent_unregistered.
Qed.

(** What one invocation does to the bridge's variables. *)
Lemma invoke_bridge p w :
  bridge (invoke p w).2 =
    match p with
    | Set_listener onEvent => Globals (Some (new_AutoGCRoot onEvent))
    | _ => bridge w
    end.
Proof. destruct p; try reflexivity. apply sendChartboostEvent_bridge. Qed.

Lemma run_registered ps w :
  chartboostEventHandle (bridge (run ps w)) =
    registered ps (chartboostEventHandle (bridge w)).
Proof.
  revert w. induction ps as [|p ps IH]; intros w; simpl; [done |].
  rewrite IH, invoke_bridge. by destruct p.
Qed.

End BridgeFacts.

(** A history without [set_listener] leaves the handle where it was. *)
Lemma registered_without_listener ps h :
  Forall (λ p, ∀ onEvent, p ≠ Set_listener onEvent) ps →
  registered ps h = h.
Proof.
  induction 1 as [|p ps Hp _ IH]; simpl; [done |].
  destruct p; try apply IH. by destruct (Hp onEvent).
Qed.

(** ** The callback *)

(** C1.  With a listener in place, [sendChartboostEvent] builds one new host
    object whose fields are exactly type, location, uri, reward_coins,
    error and status, bound to the arguments (three strings, two
    integers, one boolean), and calls the registered handler once, with
    that object; the handler is entered in a heap where the object
    already holds all six fields.  Nothing else leaves the bridge and its
    variables stay as they were. *)
Theorem sendChartboostEvent_delivers_record
    type location uri reward_coins error status w root :
  chartboostEventHandle (bridge w) = Some root →
  ∃ (o : loc) (record : gmap string value),
    heap w !! o = None ∧
    sendChartboostEvent type location uri reward_coins error status w =
      ((), World (bridge w) (<[o := record]> (heap w))
             (calls w ++
                [HostCall (get root) (VObject o) (<[o := record]> (heap w))])) ∧
    dom record =
      list_to_set ["type"; "location"; "uri"; "reward_coins"; "error"; "status"] ∧
    record !! "type" = Some (VString type) ∧
    record !! "location" = Some (VString location) ∧
    record !! "uri" = Some (VString uri) ∧
    record !! "reward_coins" = Some (VInt reward_coins) ∧
    record !! "error" = Some (VInt error) ∧
    record !! "status" = Some (VBool status).
Proof.
  intros Hroot. eexists _, _. split; [|split].
  - apply (not_elem_of_dom (D := gset loc)), is_fresh.
  - by apply sendChartboostEvent_registered.
  - split; [|by repeat split].
    rewrite !dom_insert_L, dom_empty_L. set_solver.
Qed.

Lemma sendChartboostEvent_delivers_record_witness :
  chartboostEventHandle
    (bridge (set_listener (VFunction 1%positive) init).2) =
    Some (new_AutoGCRoot (VFunction 1%positive)) ∧
  ∃ (o : loc) (record : gmap string value),
    heap (set_listener (VFunction 1%positive) init).2 !! o = None ∧
    sendChartboostEvent
      "didCacheInterstitial" "Default" "" 0 (-1) true
      (set_listener (VFunction 1%positive) init).2 =
      ((), World (bridge (set_listener (VFunction 1%positive) init).2)
             (<[o := record]> (heap (set_listener (VFunction 1%positive) init).2))
             (calls (set_listener (VFunction 1%positive) init).2 ++
                [HostCall (get (new_AutoGCRoot (VFunction 1%positive))) (VObject o)
                   (<[o := record]>
                      (heap (set_listener (VFunction 1%positive) init).2))])) ∧
    dom record =
      list_to_set ["type"; "location"; "uri"; "reward_coins"; "error"; "status"] ∧
    record !! "type" = Some (VString "didCacheInterstitial") ∧
    record !! "location" = Some (VString "Default") ∧
    record !! "uri" = Some (VString "") ∧
    record !! "reward_coins" = Some (VInt 0) ∧
    record !! "error" = Some (VInt (-1)) ∧
    record !! "status" = Some (VBool true).
Proof.
  split; [reflexivity |].
  exact (sendChartboostEvent_delivers_record
           "didCacheInterstitial" "Default" "" 0 (-1) true
           (set_listener (VFunction 1%positive) init).2
           (new_AutoGCRoot (VFunction 1%positive)) eq_refl).
Defined.

(** C6.  With a listener in place, the handler is entered with an object
    whose error field is, at that moment, the integer
    [sendChartboostEvent] was given, as it was given; that one call into
    the host is all the callback does: no other call is made and the
    bridge's variables are left alone. *)
Theorem sendChartboostEvent_forwards_error
    type location uri reward_coins error status w root :
  chartboostEventHandle (bridge w) = Some root →
  ∃ (o : loc) (record : gmap string value),
    (sendChartboostEvent type location uri reward_coins error status w).2 =
      World (bridge w) (<[o := record]> (heap w))
        (calls w ++
           [HostCall (get root) (VObject o) (<[o := record]> (heap w))]) ∧
    record !! "error" = Some (alloc_int error) ∧
    alloc_int error = VInt error.
Proof.
  intros Hroot. eexists _, _.
  rewrite (sendChartboostEvent_registered _ _ _ _ _ _ _ root Hroot).
  by repeat split.
Qed.

Lemma sendChartboostEvent_forwards_error_witness :
  ∃ (o : loc) (record : gmap string value),
    (sendChartboostEvent "didFailToLoadInterstitial" "Default" "" 0 6 false
       (World (Globals (Some (new_AutoGCRoot (VFunction 1%positive)))) ∅ [])).2 =
      World (Globals (Some (new_AutoGCRoot (VFunction 1%positive))))
        (<[o := record]> ∅)
        ([] ++ [HostCall (VFunction 1%positive) (VObject o) (<[o := record]> ∅)]) ∧
    record !! "error" = Some (alloc_int 6) ∧
    alloc_int 6 = VInt 6.
Proof.
  exact (sendChartboostEvent_forwards_error
           "didFailToLoadInterstitial" "Default" "" 0 6 false
           (World (Globals (Some (new_AutoGCRoot (VFunction 1%positive)))) ∅ [])
           (new_AutoGCRoot (VFunction 1%positive)) eq_refl).
Defined.

(** C9.  While the handle is null, [sendChartboostEvent] returns at once:
    the world after the call is the world before it, so no object was
    allocated, no handler (and nothing else) was called, and the bridge's
    variables are unchanged. *)
Theorem sendChartboostEvent_dropped_without_listener
    type location uri reward_coins error status w :
  chartboostEventHandle (bridge w) = None →
  sendChartboostEvent type location uri reward_coins error status w = ((), w).
Proof. apply sendChartboostEvent_unregistered. Qed.

Lemma sendChartboostEvent_dropped_without_listener_witness :
  chartboostEventHandle
    (bridge (@run example_platform
               [Cache_interstitial (mk_HxString "Default");
                Has_interstitial (mk_HxString "Default")] init)) = None ∧
  sendChartboostEvent "didCacheInterstitial" "Default" "" 0 (-1) true
    (@run example_platform
       [Cache_interstitial (mk_HxString "Default");
        Has_interstitial (mk_HxString "Default")] init) =
    ((), @run example_platform
           [Cache_interstitial (mk_HxString "Default");
            Has_interstitial (mk_HxString "Default")] init).
Proof.
  split; [reflexivity |].
  exact (sendChartboostEvent_dropped_without_listener
           "didCacheInterstitial" "Default" "" 0 (-1) true
           (@run example_platform
              [Cache_interstitial (mk_HxString "Default");
               Has_interstitial (mk_HxString "Default")] init)
           eq_refl).
Defined.

(** From load time on, a history that never runs [set_listener] keeps the
    handle null, so every event sent after it is dropped. *)
Lemma never_registered_dropped `{Platform} ps
    type location uri reward_coins error status :
  Forall (λ p, ∀ onEvent, p ≠ Set_listener onEvent) ps →
  sendChartboostEvent type location uri reward_coins error status (run ps init) =
    ((), run ps init).
Proof.
  intros Hps. apply sendChartboostEvent_unregistered.
  rewrite run_registered. by apply registered_without_listener.
Qed.

(** ** The listener handle *)

(** C4, as the code has it.  The bridge's variables are the one handle.  An
    invocation of [set_listener] overwrites it with a new root of its
    argument, whatever it held; every other exported operation leaves
    it as it found it.  Hence after any history the handle is the root made
    by the latest [set_listener], or still the initial one if there was
    none. *)
Theorem chartboostEventHandle_written_by_set_listener_only :
  (∀ g : globals, g = Globals (chartboostEventHandle g)) ∧
  (∀ (P : Platform) (p : prim) (w : world),
     bridge (invoke p w).2 =
       match p with
       | Set_listener onEvent => Globals (Some (new_AutoGCRoot onEvent))
       | _ => bridge w
       end) ∧
  (∀ (P : Platform) (ps : list prim) (w : world),
     chartboostEventHandle (bridge (run ps w)) =
       registered ps (chartboostEventHandle (bridge w))).
Proof.
  split; [by intros [] |]. split; intros P.
  - apply invoke_bridge.
  - apply run_registered.
Qed.

(** C4, as stated, fails: the handle is not set once.  A second
    [set_listener] replaces the root the first one stored. *)
Lemma set_listener_twice_overwrites :
  chartboostEventHandle
    (bridge (@run example_platform [Set_listener (VFunction 1%positive)] init)) =
    Some (new_AutoGCRoot (VFunction 1%positive)) ∧
  chartboostEventHandle
    (bridge (@run example_platform
               [Set_listener (VFunction 1%positive);
                Set_listener (VFunction 2%positive)] init)) =
    Some (new_AutoGCRoot (VFunction 2%positive)) ∧
  ¬ (∀ (ps qs : list prim) (root : AutoGCRoot),
       chartboostEventHandle (bridge (@run example_platform ps init)) = Some root →
       chartboostEventHandle (bridge (@run example_platform (ps ++ qs) init)) =
         Some root).
Proof.
  split; [reflexivity |]. split; [reflexivity |].
  intros Honce.
  specialize (Honce [Set_listener (VFunction 1%positive)]
                    [Set_listener (VFunction 2%positive)]
                    (new_AutoGCRoot (VFunction 1%positive)) eq_refl).
  simpl in Honce. congruence.
Qed.

(** ** Pass-through primitives *)

(** C5.  Each of the four location primitives returns nothing and changes
    the world by exactly one outgoing call: the native function of the
    corresponding name, applied to [location.c_str()] alone. *)
Theorem location_primitives_pass_through (location : HxString) (w : world) :
  show_interstitial location w =
    ((), logged w (NativeCall "showInterstitial" [CStr (c_str location)])) ∧
  cache_interstitial location w =
    ((), logged w (NativeCall "cacheInterstitial" [CStr (c_str location)])) ∧
  show_rewarded_video location w =
    ((), logged w (NativeCall "showRewardedVideo" [CStr (c_str location)])) ∧
  cache_rewarded_video location w =
    ((), logged w (NativeCall "cacheRewardedVideo" [CStr (c_str location)])).
Proof. repeat split. Qed.

(** C2, on the code as written.  [has_rewarded_video] calls the identifier
    [returnhasRewardedVideo], not [hasRewardedVideo], and returns no
    value: the answer of the platform never shows in its result. *)
Theorem has_rewarded_video_as_written
    (P : Platform) (location : HxString) (w : world) :
  has_rewarded_video location w =
    (None, logged w (NativeCall "returnhasRewardedVideo" [CStr (c_str location)])) ∧
  (NativeCall "hasRewardedVideo" [CStr (c_str location)] ∉
     drop (length (calls w)) (calls (has_rewarded_video location w).2)) ∧
  @hasRewardedVideo P (c_str location) w =
    (answer_bool (calls w) "hasRewardedVideo" [CStr (c_str location)],
     logged w (NativeCall "hasRewardedVideo" [CStr (c_str location)])).
Proof.
  split; [reflexivity |]. split; [|reflexivity].
  simpl. rewrite drop_app_length. by intros [=]%list_elem_of_singleton.
Qed.

(** C3, on the code as written.  [has_interstitial] does call
    [hasInterstitial] with [location.c_str()], but being declared [void]
    it hands nothing back: its result is the same whatever the native
    function answers. *)
Theorem has_interstitial_as_written
    (P : Platform) (location : HxString) (w : world) :
  @has_interstitial P location w =
    ((), logged w (NativeCall "hasInterstitial" [CStr (c_str location)])) ∧
  (@hasInterstitial example_platform (c_str location) w).1 = true ∧
  (@hasInterstitial example_platform_no (c_str location) w).1 = false ∧
  @has_interstitial example_platform location w =
    @has_interstitial example_platform_no location w.
Proof. by repeat split. Qed.

(** C7, on the code as written.  What [set_status_bar_behavior] passes to
    [setStatusBarBehavior] is [val_bool] of its argument taken for a
    handle; that is the argument itself only on a platform where decoding
    undoes the conversion, and on the example platform [true] arrives as
    [false].  The sibling [set_muted] passes its argument as it is. *)
Theorem set_status_bar_behavior_as_written
    (P : Platform) (shouldHide : bool) (w : world) :
  set_status_bar_behavior shouldHide w =
    ((), logged w (NativeCall "setStatusBarBehavior"
                     [CBool (val_bool (bool_as_value shouldHide))])) ∧
  (set_status_bar_behavior shouldHide w =
     ((), logged w (NativeCall "setStatusBarBehavior" [CBool shouldHide]))
   ↔ val_bool (bool_as_value shouldHide) = shouldHide) ∧
  @set_status_bar_behavior example_platform true w =
    ((), logged w (NativeCall "setStatusBarBehavior" [CBool false])) ∧
  set_muted shouldHide w =
    ((), logged w (NativeCall "setMuted" [CBool shouldHide])).
Proof.
  split; [reflexivity |]. split; [|by split].
  split.
  - intros Heq. injection Heq as Heq. by simplify_list_eq.
  - intros Heq. unfold set_status_bar_behavior. by rewrite Heq.
Qed.

(** ** The vendor error codes *)

Import CHBAdDelegate.

(** C8.  The three enumerations consist of exactly these enumerators, with
    exactly these values. *)
Theorem error_code_enumerations :
  ((λ c, (cache_name c, cache_code c)) <$> enum CHBCacheErrorCode =
     [ ("CHBCacheErrorCodeInternal", 0%N);
       ("CHBCacheErrorCodeInternetUnavailable", 1%N);
       ("CHBCacheErrorCodeNetworkFailure", 5%N);
       ("CHBCacheErrorCodeNoAdFound", 6%N);
       ("CHBCacheErrorCodeSessionNotStarted", 7%N);
       ("CHBCacheErrorCodeAssetDownloadFailure", 16%N) ]) ∧
  ((λ c, (show_name c, show_code c)) <$> enum CHBShowErrorCode =
     [ ("CHBShowErrorCodeInternal", 0%N);
       ("CHBShowErrorCodeSessionNotStarted", 7%N);
       ("CHBShowErrorCodeAdAlreadyVisible", 8%N);
       ("CHBShowErrorCodeInternetUnavailable", 25%N);
       ("CHBShowErrorCodePresentationFailure", 33%N);
       ("CHBShowErrorCodeNoCachedAd", 34%N) ]) ∧
  ((λ c, (click_name c, click_code c)) <$> enum CHBClickErrorCode =
     [ ("CHBClickErrorCodeUriInvalid", 0%N);
       ("CHBClickErrorCodeUriUnrecognized", 1%N);
       ("CHBClickErrorCodeConfirmationGateFailure", 2%N);
       ("CHBClickErrorCodeInternal", 3%N) ]) ∧
  (∀ c : CHBCacheErrorCode, c ∈ enum CHBCacheErrorCode) ∧
  (∀ c : CHBShowErrorCode, c ∈ enum CHBShowErrorCode) ∧
  (∀ c : CHBClickErrorCode, c ∈ enum CHBClickErrorCode).
Proof. repeat split; apply elem_of_enum. Qed.

(** C10.  Inside one enumeration no two enumerators share a value.  Across
    enumerations they do: 7 is the session-not-started code of both the
    cache and the show enumeration, and 0 is the internal error of those
    two but the invalid-URI error of the click enumeration.  So no reading
    of the bare number recovers the error, while the number together with
    the kind of event it came with does. *)
Theorem error_codes_need_their_kind :
  NoDup (cache_code <$> enum CHBCacheErrorCode) ∧
  NoDup (show_code <$> enum CHBShowErrorCode) ∧
  NoDup (click_code <$> enum CHBClickErrorCode) ∧
  cache_code CHBCacheErrorCodeSessionNotStarted = 7%N ∧
  show_code CHBShowErrorCodeSessionNotStarted = 7%N ∧
  cache_code CHBCacheErrorCodeInternal = 0%N ∧
  show_code CHBShowErrorCodeInternal = 0%N ∧
  click_code CHBClickErrorCodeUriInvalid = 0%N ∧
  ¬ (∃ read : N → CHBError, ∀ e : CHBError, read (number_of e) = e) ∧
  (∀ e : CHBError, decode (kind_of e) (number_of e) = Some e).
Proof.
  repeat split; try by apply (bool_decide_unpack _).
  - intros [read Hread].
    pose proof (Hread (CacheError CHBCacheErrorCodeInternal)) as Hcache.
    pose proof (Hread (ClickError CHBClickErrorCodeUriInvalid)) as Hclick.
    simpl in *. congruence.
  - by intros [[]|[]|[]].
Qed.

(** * Histories of invocations *)

Section Histories.
Context `{Platform}.

Lemma event_record_fields type location uri reward_coins error status :
  <["status" := VBool status]>
    (<["error" := VInt error]>
    (<["reward_coins" := VInt reward_coins]>
    (<["uri" := VString uri]>
    (<["location" := VString location]>
    (<["type" := VString type]> (∅ : gmap string value)))))) =
  event_record type location uri reward_coins error status.
Proof. reflexivity. Qed.

Lemma calls_since_app w w' es :
  calls w' = calls w ++ es → calls_since w w' = es.
Proof. intros Hc. unfold calls_since. by rewrite Hc, drop_app_length. Qed.

Lemma calls_since_same w w' :
  calls w' = calls w → calls_since w w' = [].
Proof. intros Hc. apply calls_since_app. by rewrite app_nil_r. Qed.

(** One invocation, by cases: either it is not a delivery (then it logs
    nothing or one native call and leaves the heap alone), or it is
    [sendChartboostEvent] under a listener. *)
Lemma invoke_step p w :
  ((calls_since w (invoke p w).2 = [] ∨
    ∃ fn args, calls_since w (invoke p w).2 = [NativeCall fn args]) ∧
   heap (invoke p w).2 = heap w ∧
   deliveries [p] (chartboostEventHandle (bridge w)) = []) ∨
  (∃ root type location uri reward_coins error status,
     p = SendChartboostEvent type location uri reward_coins error status ∧
     chartboostEventHandle (bridge w) = Some root ∧
     calls_since w (invoke p w).2 =
       [HostCall (get root) (VObject (fresh (dom (heap w))))
          (<[fresh (dom (heap w)) :=
               event_record type location uri reward_coins error status]> (heap w))] ∧
     heap (invoke p w).2 =
       <[fresh (dom (heap w)) :=
           event_record type location uri reward_coins error status]> (heap w) ∧
     deliveries [p] (chartboostEventHandle (bridge w)) =
       [(get root, event_record type location uri reward_coins error status)]).
Proof.
  destruct p;
    try (left; split;
         [ first [ left; by apply calls_since_same
                 | right; eexists _, _; by apply calls_since_app ]
         | split; [reflexivity | by destruct (chartboostEventHandle (bridge w))] ]).
  destruct (chartboostEventHandle (bridge w)) as [root|] eqn:Hh.
  - right. exists root, type, location, uri, reward_coins, error, status.
    simpl. rewrite (sendChartboostEvent_registered _ _ _ _ _ _ _ root Hh).
    repeat split. by apply calls_since_app.
  - left. simpl. rewrite (sendChartboostEvent_unregistered _ _ _ _ _ _ _ Hh).
    repeat split. left. by apply calls_since_same.
Qed.

Lemma invoke_calls p w :
  calls (invoke p w).2 = calls w ++ calls_since w (invoke p w).2.
Proof.
  destruct p; try (unfold calls_since; simpl;
                   by rewrite ?drop_app_length, ?drop_all, ?app_nil_r).
  simpl. destruct (chartboostEventHandle (bridge w)) as [root|] eqn:Hh.
  - rewrite (sendChartboostEvent_registered _ _ _ _ _ _ _ root Hh).
    unfold calls_since. simpl. by rewrite drop_app_length.
  - rewrite (sendChartboostEvent_unregistered _ _ _ _ _ _ _ Hh).
    unfold calls_since. by rewrite drop_all, app_nil_r.
Qed.

Lemma fresh_object_free (hp : gmap loc (gmap string value)) :
  hp !! fresh (dom hp) = None.
Proof. apply (not_elem_of_dom (D := gset loc)), is_fresh. Qed.

Lemma invoke_heap_subseteq p w : heap w ⊆ heap (invoke p w).2.
Proof.
  destruct (invoke_step p w) as [(_ & -> & _)|(? & ? & ? & ? & ? & ? & ? & _ & _ & _ & -> & _)].
  - done.
  - apply insert_subseteq, fresh_object_free.
Qed.

Lemma run_heap_subseteq ps w : heap w ⊆ heap (run ps w).
Proof.
  revert w. induction ps as [|p ps IH]; intros w; simpl; [done |].
  etrans; [apply (invoke_heap_subseteq p) | apply IH].
Qed.

Lemma run_calls ps w :
  calls (run ps w) = calls w ++ calls_since w (run ps w).
Proof.
  revert w. induction ps as [|p ps IH]; intros w; simpl.
  - unfold calls_since. by rewrite drop_all, app_nil_r.
  - rewrite IH at 1. rewrite invoke_calls, <-(assoc_L (++)).
    f_equal. symmetry. apply calls_since_app.
    rewrite IH at 1. by rewrite invoke_calls, <-(assoc_L (++)).
Qed.

Lemma calls_since_cons p ps w :
  calls_since w (run (p :: ps) w) =
    calls_since w (invoke p w).2 ++ calls_since (invoke p w).2 (run ps (invoke p w).2).
Proof.
  simpl. apply calls_since_app.
  rewrite run_calls at 1. by rewrite invoke_calls, <-(assoc_L (++)).
Qed.

Lemma host_calls_app hp es1 es2 :
  host_calls hp (es1 ++ es2) = host_calls hp es1 ++ host_calls hp es2.
Proof. apply omap_app. Qed.


Lemma native_calls_app es1 es2 :
  native_calls (es1 ++ es2) = native_calls es1 ++ native_calls es2.
Proof. apply omap_app. Qed.


Lemma invoke_registered p w :
  chartboostEventHandle (bridge (invoke p w).2) =
    registered [p] (chartboostEventHandle (bridge w)).
Proof. apply (run_registered [p]). Qed.

(** X1.  Once a listener is in place none of the exported operations takes
    it away again: the handle stays non-null through every history. *)
Theorem listener_never_cleared ps w :
  is_Some (chartboostEventHandle (bridge w)) →
  is_Some (chartboostEventHandle (bridge (run ps w))).
Proof.
  rewrite run_registered. generalize (chartboostEventHandle (bridge w)).
  induction ps as [|p ps IH]; intros h Hh; simpl; [done |].
  destruct p; by apply IH.
Qed.

(** X2.  The bridge never takes anything back: the host objects that
    exist before a history exist unchanged after it, and the calls logged
    before it are the beginning of the log after it. *)
Theorem history_keeps_objects_and_calls ps w :
  heap w ⊆ heap (run ps w) ∧ calls w `prefix_of` calls (run ps w).
Proof.
  split; [apply run_heap_subseteq |].
  exists (calls_since w (run ps w)). apply run_calls.
Qed.

(** X3.  Which operation can do what.  Only [sendChartboostEvent] runs
    host code through [val_call1] or creates a host object with
    [alloc_empty_object]: every other operation logs no host call and
    leaves the object heap as it was.  [sendChartboostEvent] and
    [set_listener] call no function of the native SDK, and the two
    library hooks leave everything as it was. *)
Theorem only_sendChartboostEvent_runs_host_code p w :
  match p with
  | SendChartboostEvent _ _ _ _ _ _ =>
      native_calls (calls_since w (invoke p w).2) = []
  | Set_listener _ =>
      native_calls (calls_since w (invoke p w).2) = [] ∧
      host_calls (heap w) (calls_since w (invoke p w).2) = [] ∧
      heap (invoke p w).2 = heap w
  | Samcodeschartboost_main | Samcodeschartboost_register_prims =>
      (invoke p w).2 = w
  | _ =>
      host_calls (heap w) (calls_since w (invoke p w).2) = [] ∧
      heap (invoke p w).2 = heap w
  end.
Proof.
  destruct p;
    try (unfold calls_since; simpl; by rewrite ?drop_app_length, ?drop_all).
  simpl. destruct (chartboostEventHandle (bridge w)) as [root|] eqn:Hh.
  - rewrite (sendChartboostEvent_registered _ _ _ _ _ _ _ root Hh).
    unfold calls_since. simpl. by rewrite drop_app_length.
  - rewrite (sendChartboostEvent_unregistered _ _ _ _ _ _ _ Hh).
    unfold calls_since. by rewrite drop_all.
Qed.




Lemma run_app ps qs w : run (ps ++ qs) w = run qs (run ps w).
Proof. revert w. induction ps as [|p ps IH]; intros w; simpl; [done | apply IH]. Qed.

(** A history without [set_listener], started with no listener: every
    step is of the first kind of [invoke_step]. *)
Lemma run_without_listener ps w :
  chartboostEventHandle (bridge w) = None →
  Forall (λ p, ∀ onEvent, p ≠ Set_listener onEvent) ps →
  chartboostEventHandle (bridge (run ps w)) = None ∧
  heap (run ps w) = heap w ∧
  host_calls (heap w) (calls_since w (run ps w)) = [].
Proof.
  intros Hnull Hps. revert w Hnull.
  induction Hps as [|p ps Hp Hps IH]; intros w Hnull.
  - simpl. unfold calls_since. by rewrite drop_all.
  - assert (Hnull' : chartboostEventHandle (bridge (invoke p w).2) = None).
    { rewrite invoke_registered, Hnull.
      apply (registered_without_listener [p]). by constructor. }
    rewrite calls_since_cons, host_calls_app. simpl run.
    destruct (IH _ Hnull') as (Hh & Hheap & Hcalls).
    destruct (invoke_step p w)
      as [([Hc | (fn & args & Hc)] & Hheap' & _)
         |(root & ? & ? & ? & ? & ? & ? & _ & Hroot & _)];
      [| |congruence];
      rewrite Hc, Hheap, Hheap'; rewrite Hheap' in Hcalls;
      by rewrite Hcalls.
Qed.

(** X7.  After [set_listener onEvent] the next event goes to [onEvent],
    whatever listener was there before and whatever [onEvent] is: the
    guard of [sendChartboostEvent] looks at the root, not at the value in
    it, so registering a null value does not switch delivery off. *)
Theorem set_listener_then_event
    onEvent type location uri reward_coins error status w :
  sendChartboostEvent type location uri reward_coins error status
    (set_listener onEvent w).2 =
    ((), World (Globals (Some (new_AutoGCRoot onEvent)))
           (<[fresh (dom (heap w)) :=
                event_record type location uri reward_coins error status]> (heap w))
           (calls w ++
              [HostCall onEvent (VObject (fresh (dom (heap w))))
                 (<[fresh (dom (heap w)) :=
                      event_record type location uri reward_coins error status]>
                    (heap w))])) ∧
  sendChartboostEvent type location uri reward_coins error status
    (set_listener VNull w).2 ≠
    ((), (set_listener VNull w).2).
Proof.
  split.
  - by rewrite (sendChartboostEvent_registered _ _ _ _ _ _ _ (new_AutoGCRoot onEvent)).
  - rewrite (sendChartboostEvent_registered _ _ _ _ _ _ _ (new_AutoGCRoot VNull))
      by reflexivity.
    simpl. intros [= _ Hcalls].
    apply (f_equal length) in Hcalls. rewrite length_app in Hcalls. simpl in Hcalls. lia.
Qed.

(** X10.  What the native SDK is asked to do by a history depends on the
    history alone: not on the listener, not on the host heap and not on
    what was logged (and so answered) before. *)
Theorem native_calls_depend_on_history_only ps w w' :
  native_calls (calls_since w (run ps w)) =
  native_calls (calls_since w' (run ps w')).
Proof.
  revert w w'. induction ps as [|p ps IH]; intros w w'.
  - simpl. unfold calls_since. by rewrite !drop_all.
  - rewrite !calls_since_cons, !native_calls_app. simpl run.
    f_equal; [|apply IH].
    destruct p;
      try (unfold calls_since; simpl; by rewrite ?drop_app_length, ?drop_all).
    simpl.
    destruct (chartboostEventHandle (bridge w)) as [r|] eqn:Hh;
      destruct (chartboostEventHandle (bridge w')) as [r'|] eqn:Hh';
      rewrite ?(sendChartboostEvent_registered _ _ _ _ _ _ _ r Hh),
              ?(sendChartboostEvent_registered _ _ _ _ _ _ _ r' Hh'),
              ?(sendChartboostEvent_unregistered _ _ _ _ _ _ _ Hh),
              ?(sendChartboostEvent_unregistered _ _ _ _ _ _ _ Hh');
      unfold calls_since; simpl; by rewrite ?drop_app_length, ?drop_all.
Qed.

(** X11.  Events sent while no listener is set are lost for good: a
    history without [set_listener], started with a null handle, followed
    by a first [set_listener], has entered the host not once and has
    allocated nothing; the listener is in place for what comes next. *)
Theorem events_before_listener_are_lost ps onEvent w :
  chartboostEventHandle (bridge w) = None →
  Forall (λ p, ∀ f, p ≠ Set_listener f) ps →
  host_calls (heap w) (calls_since w (run (ps ++ [Set_listener onEvent]) w)) = [] ∧
  heap (run (ps ++ [Set_listener onEvent]) w) = heap w ∧
  chartboostEventHandle (bridge (run (ps ++ [Set_listener onEvent]) w)) =
    Some (new_AutoGCRoot onEvent).
Proof.
  intros Hnull Hps.
  destruct (run_without_listener ps w Hnull Hps) as (_ & Hheap & Hcalls).
  rewrite run_app. simpl. split; [|by split].
  unfold calls_since in *. by simpl.
Qed.

End Histories.

Lemma listener_never_cleared_witness :
  is_Some (chartboostEventHandle
             (bridge (set_listener (VFunction 1%positive) init).2)) ∧
  is_Some (chartboostEventHandle
             (bridge (@run example_platform
                        [SendChartboostEvent "didDismissInterstitial" "Default" "" 0 (-1) true;
                         Set_muted true;
                         Set_listener VNull]
                        (set_listener (VFunction 1%positive) init).2))).
Proof.
  split; [by eexists |].
  apply (@listener_never_cleared example_platform). by eexists.
Defined.

Lemma events_before_listener_are_lost_witness :
  host_calls (heap init)
    (calls_since init
       (@run example_platform
          ([SendChartboostEvent "didCacheInterstitial" "Default" "" 0 (-1) true;
            Show_interstitial (mk_HxString "Default")]
           ++ [Set_listener (VFunction 1%positive)]) init)) = [] ∧
  heap (@run example_platform
          ([SendChartboostEvent "didCacheInterstitial" "Default" "" 0 (-1) true;
            Show_interstitial (mk_HxString "Default")]
           ++ [Set_listener (VFunction 1%positive)]) init) = heap init ∧
  chartboostEventHandle
    (bridge (@run example_platform
               ([SendChartboostEvent "didCacheInterstitial" "Default" "" 0 (-1) true;
                 Show_interstitial (mk_HxString "Default")]
                ++ [Set_listener (VFunction 1%positive)]) init)) =
    Some (new_AutoGCRoot (VFunction 1%positive)).
Proof.
  apply (@events_before_listener_are_lost example_platform); [reflexivity |].
  repeat constructor; intros f; discriminate.
Defined.
